(** * imme: site-generator configurations and authored content

    The repository holds two Astro configuration objects
    ([src/astro.config.ts] and a second, path-prefixed variant) and content
    files written as markdown with a frontmatter block.  The configuration
    objects are embedded as JavaScript object literals (finite maps from
    property names to values), the frontmatter blocks as YAML mappings. *)

From stdpp Require Import gmap strings list fin_maps.
From Stdlib Require Import ZArith Ascii String.

Local Open Scope string_scope.
Local Set Warnings "-register-all".

(** ** JavaScript values occurring in the configuration files *)

Module Js.

(** An object literal is a finite map from property names to values; the
    result of calling an imported integration ([vercel({...})]) is kept as
    the call itself, since the integration is external to the repository. *)
Inductive value : Type :=
| Str (s : string)
| Bool (b : bool)
| Obj (fields : gmap string value)
| Call (callee : string) (args : list value).

Definition get (k : string) (v : value) : option value :=
  match v with
  | Obj fields => fields !! k
  | _ => None
  end.

(** [o.k1.k2...]: property access along a path, [None] as soon as a
    property is absent. *)
Fixpoint path (ks : list string) (v : value) : option value :=
  match ks with
  | [] => Some v
  | k :: ks' => match get k v with
                | Some v' => path ks' v'
                | None => None
                end
  end.

Definition is_str (o : option value) : bool :=
  match o with Some (Str _) => true | _ => false end.

Definition is_bool (o : option value) : bool :=
  match o with Some (Bool _) => true | _ => false end.

Definition is_absent (o : option value) : bool :=
  match o with None => true | Some _ => false end.

Definition str_is (s : string) (o : option value) : bool :=
  match o with Some (Str s') => String.eqb s s' | _ => false end.

Definition bool_is (b : bool) (o : option value) : bool :=
  match o with Some (Bool b') => Bool.eqb b b' | _ => false end.

End Js.

(** ** The two configuration objects *)

Module Config.
Import Js.

(** [import { defineConfig } from 'astro/config']: returns its argument. *)
Definition defineConfig (c : value) : value := c.

(** [import vercel from '@astrojs/vercel']: the adapter factory, applied to
    its options object. *)
Definition vercel (opts : value) : value := Call "vercel" [opts].

(** [src/astro.config.ts] *)
Definition astro_config : value :=
  defineConfig (Obj (list_to_map [
    ("site", Str "https://imme-navy.vercel.app/");
    ("output", Str "static");
    ("adapter", vercel (Obj (list_to_map [
       ("webAnalytics", Obj (list_to_map [ ("enabled", Bool true) ])) ])));
    ("prefetch", Bool true);
    ("compressHTML", Bool true) ])).

(** The second configuration file (path-prefixed export). *)
Definition astro_config_prefixed : value :=
  defineConfig (Obj (list_to_map [
    ("site", Str "https://giovanicavila.github.io");
    ("base", Str "/DOM-enlightenment");
    ("output", Str "static");
    ("prefetch", Bool true);
    ("compressHTML", Bool true) ])).

Definition configs : list value := [astro_config; astro_config_prefixed].

(** Options object handed to the adapter factory, when the configuration
    has an adapter. *)
Definition adapter_options (c : value) : option value :=
  match get "adapter" c with
  | Some (Call _ [opts]) => Some opts
  | _ => None
  end.

Definition analytics_enabled (c : value) : bool :=
  match adapter_options c with
  | Some opts => bool_is true (path ["webAnalytics"; "enabled"] opts)
  | None => false
  end.

(** A path-prefixed static export: a base path prefix, no adapter. *)
Definition path_prefixed_export (c : value) : bool :=
  str_is "static" (get "output" c)
  && is_str (get "base" c)
  && is_absent (get "adapter" c).

(** An adapter-based static export with analytics enabled: an adapter with
    web analytics switched on, no base path prefix. *)
Definition adapter_export_with_analytics (c : value) : bool :=
  str_is "static" (get "output" c)
  && negb (is_absent (get "adapter" c))
  && analytics_enabled c
  && is_absent (get "base" c).

(** The properties that select the deployment target. *)
Definition target_keys : list string := ["site"; "base"; "adapter"].

End Config.

(** ** Calendar dates *)

Module Dates.
Local Open Scope Z_scope.

Record date : Type := mkDate { year : Z; month : Z; day : Z }.

Definition is_leap (y : Z) : bool :=
  ((y mod 4 =? 0) && negb (y mod 100 =? 0)) || (y mod 400 =? 0).

Definition days_in_month (y m : Z) : Z :=
  if m =? 2 then (if is_leap y then 29 else 28)
  else if (m =? 4) || (m =? 6) || (m =? 9) || (m =? 11) then 30
  else 31.

Definition valid (d : date) : bool :=
  (0 <=? year d) && (year d <=? 9999)
  && (1 <=? month d) && (month d <=? 12)
  && (1 <=? day d) && (day d <=? days_in_month (year d) (month d)).

Definition make (y m d : Z) : option date :=
  let r := mkDate y m d in if valid r then Some r else None.

Definition digit_val (c : ascii) : option Z :=
  let n := Z.of_N (N_of_ascii c) in
  if (48 <=? n) && (n <=? 57) then Some (n - 48) else None.

Definition digit_char (n : Z) : ascii :=
  ascii_of_N (Z.to_N (48 + n)).

Definition num2 (a b : ascii) : option Z :=
  x ← digit_val a; y ← digit_val b; Some (10 * x + y).

Definition num4 (a b c d : ascii) : option Z :=
  x ← num2 a b; y ← num2 c d; Some (100 * x + y).

Definition is_dash (c : ascii) : bool := Ascii.eqb c "-"%char.

(** The date-only forms of a date string: [YYYY], [YYYY-MM] and
    [YYYY-MM-DD]; a missing month or day counts as 1. *)
Definition parse (s : string) : option date :=
  match list_ascii_of_string s with
  | [a; b; c; d] =>
      y ← num4 a b c d; make y 1 1
  | [a; b; c; d; s1; e; f] =>
      if is_dash s1 then y ← num4 a b c d; m ← num2 e f; make y m 1
      else None
  | [a; b; c; d; s1; e; f; s2; g; h] =>
      if is_dash s1 && is_dash s2
      then y ← num4 a b c d; m ← num2 e f; dd ← num2 g h; make y m dd
      else None
  | _ => None
  end.

Definition show2 (n : Z) : list ascii :=
  [digit_char (n / 10 mod 10); digit_char (n mod 10)].

Definition show4 (n : Z) : list ascii :=
  show2 (n / 100) ++ show2 (n mod 100).

(** [YYYY-MM-DD] *)
Definition show (d : date) : string :=
  string_of_list_ascii
    (show4 (year d) ++ "-"%char :: show2 (month d) ++ "-"%char :: show2 (day d)).

End Dates.

(** ** Frontmatter values *)

Module Yaml.

(** The value of a frontmatter key, as the YAML block gives it: a quoted
    or plain string, a boolean, an unquoted [YYYY-MM-DD] timestamp, a flow
    sequence [[a, b, ...]], or a nested mapping. *)
Inductive value : Type :=
| Str (s : string)
| Bool (b : bool)
| Date (y m d : Z)
| Seq (items : list value)
| Map (fields : gmap string value).

Definition is_scalar (v : value) : bool :=
  match v with
  | Str _ | Bool _ | Date _ _ _ => true
  | Seq _ | Map _ => false
  end.

Definition is_str (v : value) : bool :=
  match v with Str _ => true | _ => false end.

Definition is_bool (v : value) : bool :=
  match v with Bool _ => true | _ => false end.

(** Modelled from the spec: which values are a valid, parseable date (the
    parsing belongs to the content framework): a timestamp literal, or a
    string in one of the date-only forms, naming a day that exists. *)
Definition to_date (v : value) : option Dates.date :=
  match v with
  | Date y m d => Dates.make y m d
  | Str s => Dates.parse s
  | _ => None
  end.

Definition is_date (v : value) : bool :=
  match to_date v with Some _ => true | None => false end.

(** An ordered sequence of string labels. *)
Definition is_strings (v : value) : bool :=
  match v with
  | Seq items => forallb is_str items
  | _ => false
  end.

(** A value of a flat record: a scalar or a sequence of scalars. *)
Definition is_flat (v : value) : bool :=
  match v with
  | Seq items => forallb is_scalar items
  | Map _ => false
  | _ => true
  end.

End Yaml.

(** ** Authored content files *)

Module Content.
Import Yaml.

Inductive collection : Type := Experience | Blog | Projects.

Definition collection_eqb (a b : collection) : bool :=
  match a, b with
  | Experience, Experience | Blog, Blog | Projects, Projects => true
  | _, _ => false
  end.

(** A content file: the collection it belongs to and its frontmatter. The
    markdown body below the frontmatter is prose and is left out. *)
Record file : Type := mkFile {
  coll : collection;
  data : gmap string value
}.

Definition field (k : string) (f : file) : option value := data f !! k.

(** The experience entry (second document of [src/README.md]). *)
Definition experience_dataside : file :=
  mkFile Experience (list_to_map [
    ("title", Str "Front-end developer at Dataside");
    ("logo", Str "/images/companies/techcorp.svg");
    ("description", Str "I specialize in developing user interfaces and managing state with React and TypeScript, focusing on building reusable components using Shadcn and TailwindCSS. I am also responsible for global state management via useContext and integrating REST APIs, leveraging React Query to optimize asynchronous data handling and caching.");
    ("startDate", Str "2025-06");
    ("current", Bool true) ]).

(** The blog post on signals. *)
Definition post_signals : file :=
  mkFile Blog (list_to_map [
    ("title", Str "Signals in Frontend: The Reactive Revolution You Didn't Know You Needed");
    ("description", Str "Why Vue and Angular embraced signals while React said 'nah, we're good'");
    ("publishedAt", Date 2026 1 9);
    ("tags", Seq [Str "signals"; Str "reactivity"; Str "vue"; Str "angular";
                  Str "react"; Str "state-management"]) ]).

(** [src/content/projects/shop.md] *)
Definition project_shop : file :=
  mkFile Projects (list_to_map [
    ("title", Str "Shop management");
    ("description", Str "A pizza shop management application built as a study project to explore modern technologies. Features include pizza order management, a dynamic animated UI, and advanced routing with TanStack Router. Designed to deliver a seamless and engaging user experience while leveraging the latest in web development tools.");
    ("url", Str "https://github.com/giovanicavila/shop");
    ("featured", Bool true);
    ("techs", Seq [Str "React"; Str "TypeScript"; Str "TanStack Query";
                   Str "TailwindCSS"; Str "TanStack Router"; Str "Shadcn";
                   Str "animation-ui"]) ]).

Definition experience_entries : list file := [experience_dataside].
Definition blog_posts : list file := [post_signals].
Definition project_entries : list file := [project_shop].

Definition content_files : list file :=
  experience_entries ++ blog_posts ++ project_entries.

Definition has (test : value -> bool) (k : string) (f : file) : bool :=
  match field k f with Some v => test v | None => false end.

Definition lacks (k : string) (f : file) : bool :=
  match field k f with Some _ => false | None => true end.

(** Absent, or present and passing the test. *)
Definition optional (test : value -> bool) (k : string) (f : file) : bool :=
  match field k f with Some v => test v | None => true end.

Definition is_true (v : value) : bool :=
  match v with Bool true => true | _ => false end.

(** A flat record: no value is a nested mapping, sequences hold scalars. *)
Definition flat (f : file) : bool :=
  forallb (fun kv => is_flat (snd kv)) (map_to_list (data f)).

(** Every key of the file is one of [ks]. *)
Definition keys_within (ks : list string) (f : file) : bool :=
  forallb (fun kv => existsb (String.eqb (fst kv)) ks) (map_to_list (data f)).

End Content.

(** ** Collection schemas *)

Module Schema.
Import Yaml Content.

Inductive kind : Type := KString | KAsset | KBool | KDate | KStrings.

Record field_spec : Type := mkField {
  fname : string;
  fkind : kind;
  required : bool
}.

(** Modelled from the spec: the content-collection schemas (the
    repository's content configuration is not among the sources). The
    fields and their kinds are those of the spec's data model: an
    experience entry has title (string), logo (asset path), description
    (string), startDate (date), endDate (optional date), current (boolean
    flag). *)
Definition experience_schema : list field_spec :=
  [ mkField "title" KString true;
    mkField "logo" KAsset true;
    mkField "description" KString true;
    mkField "startDate" KDate true;
    mkField "endDate" KDate false;
    mkField "current" KBool true ].

(** Modelled from the spec: the blog schema of the missing content
    configuration: title, description, publishedAt (date), tags (set of
    string). *)
Definition blog_schema : list field_spec :=
  [ mkField "title" KString true;
    mkField "description" KString true;
    mkField "publishedAt" KDate true;
    mkField "tags" KStrings true ].

(** Modelled from the spec: the project schema of the missing content
    configuration: title, description, url, featured (boolean), techs
    (ordered sequence of string labels). *)
Definition project_schema : list field_spec :=
  [ mkField "title" KString true;
    mkField "description" KString true;
    mkField "url" KString true;
    mkField "featured" KBool true;
    mkField "techs" KStrings true ].

Definition schema_of (c : collection) : list field_spec :=
  match c with
  | Experience => experience_schema
  | Blog => blog_schema
  | Projects => project_schema
  end.

(** Modelled from the spec: which values a field of each kind accepts (the
    validation belongs to the content framework). A date field accepts a
    value that denotes a valid date, an asset path is a string. *)
Definition accepts (k : kind) (v : value) : bool :=
  match k with
  | KString | KAsset => is_str v
  | KBool => is_bool v
  | KDate => is_date v
  | KStrings => is_strings v
  end.

Inductive error : Type :=
| MissingField (name : string)
| InvalidField (name : string).

Inductive result (A : Type) : Type :=
| Ok (a : A)
| Failed (e : error).
Arguments Ok {A} a.
Arguments Failed {A} e.

Definition bind {A B : Type} (r : result A) (k : A -> result B) : result B :=
  match r with
  | Ok a => k a
  | Failed e => Failed e
  end.

(** Modelled from the spec: validation of one field of the missing content
    configuration: a required field must be present, a present field must
    hold a value of its kind. *)
Definition check_field (fs : field_spec) (f : file) : result unit :=
  match field (fname fs) f with
  | None => if required fs then Failed (MissingField (fname fs)) else Ok tt
  | Some v => if accepts (fkind fs) v then Ok tt
              else Failed (InvalidField (fname fs))
  end.

(** Modelled from the spec: validation of one entry against a schema,
    field by field; the first offending field is the error. *)
Fixpoint check_fields (sc : list field_spec) (f : file) : result unit :=
  match sc with
  | [] => Ok tt
  | fs :: sc' => bind (check_field fs f) (fun _ => check_fields sc' f)
  end.

(** Modelled from the spec: an entry is validated against the schema of its
    own collection. *)
Definition validate (f : file) : result unit :=
  check_fields (schema_of (coll f)) f.

Definition conforms (f : file) : bool :=
  match validate f with Ok _ => true | Failed _ => false end.

End Schema.

(** ** Site generation *)

Module Build.
Import Yaml Content Schema.

Inductive indicator : Type := Ongoing.

(** A generated page: the entry it was generated from, the period
    indicator it shows, the publication date it shows and the text of
    that date. *)
Record page : Type := mkPage {
  source : file;
  badge : option indicator;
  published : option Dates.date;
  published_text : option string
}.

Record site : Type := mkSite {
  pages : list page;
  featured_projects : list page
}.

(** Modelled from the spec: an entry with [current: true] and no
    [endDate] shows the ongoing indicator (the templates are not among the
    sources). *)
Definition badge_of (f : file) : option indicator :=
  if has is_true "current" f && lacks "endDate" f then Some Ongoing else None.

(** Modelled from the spec: the publication date of a blog post is the
    date its [publishedAt] denotes. *)
Definition publication_date (f : file) : option Dates.date :=
  match coll f with
  | Blog => field "publishedAt" f ≫= to_date
  | _ => None
  end.

(** Modelled from the spec: a page is rendered from its entry alone; a
    blog post shows its publication date, written in the date-only form
    [YYYY-MM-DD]. *)
Definition render (f : file) : page :=
  mkPage f (badge_of f) (publication_date f) (Dates.show <$> publication_date f).

(** Modelled from the spec: the featured-projects listing holds the pages
    of the project entries with [featured: true]. *)
Definition is_featured (p : page) : bool :=
  collection_eqb (coll (source p)) Projects
  && has is_true "featured" (source p).

(** Modelled from the spec: every entry is validated before anything is
    emitted; the first invalid entry fails the whole build. *)
Fixpoint validate_all (files : list file) : result unit :=
  match files with
  | [] => Ok tt
  | f :: files' => bind (validate f) (fun _ => validate_all files')
  end.

(** Modelled from the spec: the build (the generator run over the content
    directory): validate, then render one page per entry and list the
    featured projects. *)
Definition build (files : list file) : result site :=
  bind (validate_all files) (fun _ =>
    let ps := render <$> files in
    Ok (mkSite ps (List.filter is_featured ps))).

End Build.

(** ** Names and paths used across the files *)

Module Shape.

(** The option names that occur in the two configuration files. *)
Definition config_keys : list string :=
  ["site"; "base"; "output"; "adapter"; "prefetch"; "compressHTML"].

(** The frontmatter keys that occur in the blog post. *)
Definition blog_keys : list string :=
  ["title"; "description"; "publishedAt"; "tags"].

(** A path written from the root of the site, as the logo of the
    experience entry is. *)
Definition root_relative (s : string) : bool := String.prefix "/" s.

(** [s] lies under the base path prefix of configuration [c]. *)
Definition under_base (c : Js.value) (s : string) : bool :=
  match Js.get "base" c with
  | Some (Js.Str b) => String.prefix b s
  | _ => false
  end.

End Shape.

(** * Properties *)

(** ** Dates: what is shown parses back *)

Section DateText.
Import Dates.
Local Open Scope Z_scope.

Example parse_year_month : parse "2025-06" = Some (mkDate 2025 6 1).
Proof. reflexivity. Qed.

Example parse_full_date : parse "2026-01-09" = Some (mkDate 2026 1 9).
Proof. reflexivity. Qed.

Example parse_rejects_month_13 : parse "2025-13" = None.
Proof. reflexivity. Qed.

Example parse_rejects_feb_29 : parse "2025-02-29" = None.
Proof. reflexivity. Qed.

Example parse_rejects_words : parse "last June" = None.
Proof. reflexivity. Qed.

Example show_pads : show (mkDate 2026 1 9) = "2026-01-09".
Proof. reflexivity. Qed.

Lemma digit_val_char (n : Z) :
  0 <= n < 10 -> digit_val (digit_char n) = Some n.
Proof.
  intros Hn. rewrite <- (Z2Nat.id n) by lia.
  assert (Hm : (Z.to_nat n < 10)%nat) by lia.
  generalize dependent (Z.to_nat n). clear Hn. intros m Hm.
  do 10 (destruct m as [| m]; [reflexivity |]). lia.
Qed.

Lemma num2_show2 (n : Z) :
  0 <= n < 100 ->
  num2 (digit_char (n / 10 mod 10)) (digit_char (n mod 10)) = Some n.
Proof.
  intros Hn. unfold num2.
  rewrite !digit_val_char by (apply Z.mod_pos_bound; lia).
  simpl. f_equal.
  rewrite (Z.mod_small (n / 10)) by (split; [apply Z.div_pos | apply Z.div_lt_upper_bound]; lia).
  pose proof (Z.div_mod n 10). lia.
Qed.

Lemma num4_show4 (n : Z) :
  0 <= n < 10000 ->
  num4 (digit_char (n / 100 / 10 mod 10)) (digit_char (n / 100 mod 10))
       (digit_char (n mod 100 / 10 mod 10)) (digit_char (n mod 100 mod 10))
  = Some n.
Proof.
  intros Hn. unfold num4.
  rewrite (num2_show2 (n / 100))
    by (split; [apply Z.div_pos | apply Z.div_lt_upper_bound]; lia).
  rewrite (num2_show2 (n mod 100)) by (apply Z.mod_pos_bound; lia).
  simpl. f_equal. pose proof (Z.div_mod n 100). lia.
Qed.

Lemma valid_bounds (d : date) :
  valid d = true ->
  0 <= year d < 10000 /\ 1 <= month d <= 12 /\ 1 <= day d <= 31.
Proof.
  unfold valid, days_in_month. intros H.
  repeat (apply andb_prop in H; destruct H as [H ?]).
  repeat match goal with
         | X : (_ <=? _) = true |- _ => apply Z.leb_le in X
         end.
  repeat split; try lia.
  destruct (month d =? 2); [destruct (is_leap (year d)) |
    destruct ((month d =? 4) || (month d =? 6) || (month d =? 9) || (month d =? 11))];
    lia.
Qed.

Lemma parse_show (d : date) : valid d = true -> parse (show d) = Some d.
Proof.
  intros Hv. destruct (valid_bounds d Hv) as (Hy & Hm & Hd).
  unfold parse, show. rewrite list_ascii_of_string_of_list_ascii.
  cbn [show4 show2 app is_dash Ascii.eqb Bool.eqb andb].
  rewrite num4_show4 by lia.
  rewrite !num2_show2 by lia.
  cbn [mbind option_bind]. unfold make.
  destruct d as [y m dd]. cbn [year month day] in *. rewrite Hv. reflexivity.
Qed.

Lemma make_valid (y m dd : Z) (d : date) :
  make y m dd = Some d -> valid d = true.
Proof.
  unfold make. destruct (valid (mkDate y m dd)) eqn:E; [| discriminate].
  intros [= <-]. exact E.
Qed.

Lemma parse_valid (s : string) (d : date) :
  parse s = Some d -> valid d = true.
Proof.
  unfold parse.
  destruct (list_ascii_of_string s)
    as [| a [| b [| c [| e [| s1 [| f [| g [| s2 [| h [| i [| j l]]]]]]]]]]];
    try discriminate.
  - destruct (num4 a b c e) as [y |]; [| discriminate].
    apply make_valid.
  - destruct (is_dash s1); [| discriminate].
    destruct (num4 a b c e) as [y |]; [| discriminate].
    destruct (num2 f g) as [m |]; [| discriminate].
    apply make_valid.
  - destruct (is_dash s1 && is_dash s2); [| discriminate].
    destruct (num4 a b c e) as [y |]; [| discriminate].
    destruct (num2 f g) as [m |]; [| discriminate].
    destruct (num2 h i) as [dd |]; [| discriminate].
    apply make_valid.
Qed.

End DateText.

(** ** Validation and build: inversion lemmas *)

Section BuildFacts.
Import Yaml Content Schema Build.

Lemma to_date_valid (v : value) (d : Dates.date) :
  to_date v = Some d -> Dates.valid d = true.
Proof.
  destruct v; cbn; try discriminate.
  - apply parse_valid.
  - apply make_valid.
Qed.

Lemma check_fields_missing (sc : list field_spec) (f : file) (fs : field_spec) :
  fs ∈ sc -> required fs = true -> field (fname fs) f = None ->
  exists e, check_fields sc f = Failed e.
Proof.
  intros Hin Hreq Hnone. induction sc as [| fs' sc IH].
  - inversion Hin.
  - apply elem_of_cons in Hin. cbn [check_fields].
    destruct Hin as [<- | Hin].
    + unfold check_field. rewrite Hnone, Hreq. cbn. eauto.
    + destruct (check_field fs' f) as [[] | e]; cbn; eauto.
Qed.

Lemma check_fields_ok (sc : list field_spec) (f : file) (fs : field_spec) :
  check_fields sc f = Ok tt -> fs ∈ sc -> check_field fs f = Ok tt.
Proof.
  induction sc as [| fs' sc IH]; intros Hok Hin.
  - inversion Hin.
  - cbn [check_fields] in Hok.
    destruct (check_field fs' f) as [[] | e] eqn:E; cbn in Hok; [| discriminate].
    apply elem_of_cons in Hin. destruct Hin as [-> | Hin]; auto.
Qed.

Lemma validate_all_failed (files : list file) (f : file) (e : error) :
  f ∈ files -> validate f = Failed e ->
  exists e', validate_all files = Failed e'.
Proof.
  intros Hin Hf. induction files as [| g files IH].
  - inversion Hin.
  - apply elem_of_cons in Hin. cbn [validate_all].
    destruct Hin as [<- | Hin].
    + rewrite Hf. cbn. eauto.
    + destruct (validate g) as [[] | e0]; cbn; eauto.
Qed.

Lemma validate_all_ok (files : list file) (f : file) :
  validate_all files = Ok tt -> f ∈ files -> validate f = Ok tt.
Proof.
  induction files as [| g files IH]; intros Hok Hin.
  - inversion Hin.
  - cbn [validate_all] in Hok.
    destruct (validate g) as [[] | e] eqn:E; cbn in Hok; [| discriminate].
    apply elem_of_cons in Hin. destruct Hin as [-> | Hin]; auto.
Qed.

Lemma build_ok (files : list file) (s : site) :
  build files = Ok s ->
  validate_all files = Ok tt
  /\ pages s = render <$> files
  /\ featured_projects s = List.filter is_featured (render <$> files).
Proof.
  unfold build. destruct (validate_all files) as [[] | e]; cbn; [| discriminate].
  intros [= <-]. auto.
Qed.

Lemma build_failed (files : list file) (e : error) :
  validate_all files = Failed e -> build files = Failed e.
Proof. unfold build. intros ->. reflexivity. Qed.

Lemma built_page (files : list file) (s : site) (f : file) :
  build files = Ok s -> f ∈ files ->
  render f ∈ pages s /\ validate f = Ok tt.
Proof.
  intros Hb Hin. destruct (build_ok files s Hb) as (Hv & Hp & _).
  split; [| now apply (validate_all_ok files)].
  rewrite Hp. now apply list_elem_of_fmap_2.
Qed.

End BuildFacts.

(** ** The configuration objects *)

Section ConfigClaims.
Import Js Config.

(** C1: of the two configuration objects exactly one selects a
    path-prefixed static export (a base path prefix and no hosting
    adapter) and the other an adapter-based static export with analytics
    enabled (a hosting adapter with web analytics enabled and no base
    path prefix). *)
Theorem configs_select_one_target_each :
  List.filter path_prefixed_export configs = [astro_config_prefixed]
  /\ List.filter adapter_export_with_analytics configs = [astro_config]
  /\ get "base" astro_config_prefixed = Some (Str "/DOM-enlightenment")
  /\ get "adapter" astro_config_prefixed = None
  /\ get "base" astro_config = None
  /\ adapter_options astro_config
     = Some (Obj {[ "webAnalytics" := Obj {[ "enabled" := Bool true ]} ]})
  /\ analytics_enabled astro_config = true.
Proof. repeat split; vm_compute; reflexivity. Qed.

(** C3: each of the two configuration objects defines a site base URL,
    sets the output mode to the string "static", and sets a prefetch flag
    and an HTML compression flag. *)
Theorem configs_common_settings :
  Forall (fun c =>
            is_str (get "site" c) = true
            /\ get "output" c = Some (Str "static")
            /\ get "prefetch" c = Some (Bool true)
            /\ get "compressHTML" c = Some (Bool true))
         configs.
Proof. repeat constructor. Qed.

(** C9: the two configuration objects agree on every property except
    those selecting the deployment target: they agree on output mode,
    prefetch flag and HTML compression flag, and differ in site URL, base
    path prefix and hosting adapter, and only there. *)
Theorem configs_differ_only_in_target (k : string) :
  (k ∉ target_keys -> get k astro_config = get k astro_config_prefixed)
  /\ (k ∈ target_keys -> get k astro_config <> get k astro_config_prefixed)
  /\ get "output" astro_config = get "output" astro_config_prefixed
  /\ get "prefetch" astro_config = get "prefetch" astro_config_prefixed
  /\ get "compressHTML" astro_config = get "compressHTML" astro_config_prefixed.
Proof.
  split; [| split; [| repeat split]].
  - intros Hk. unfold target_keys in Hk.
    assert (k <> "site" /\ k <> "base" /\ k <> "adapter") as (H1 & H2 & H3)
      by (repeat split; intros Hx; apply Hk; rewrite Hx; repeat constructor).
    unfold astro_config, astro_config_prefixed, defineConfig, get.
    cbn [list_to_map foldr uncurry fst snd].
    rewrite !lookup_insert, lookup_empty.
    repeat case_decide; subst; congruence.
  - intros Hk. unfold target_keys in Hk.
    rewrite !elem_of_cons, elem_of_nil in Hk.
    destruct Hk as [-> | [-> | [-> | []]]]; vm_compute; discriminate.
Qed.

Lemma configs_differ_only_in_target_witness :
  ("output" ∉ target_keys)
  /\ get "output" astro_config = get "output" astro_config_prefixed
  /\ ("base" ∈ target_keys)
  /\ get "base" astro_config <> get "base" astro_config_prefixed.
Proof.
  assert (Hout : "output" ∉ target_keys).
  { unfold target_keys. rewrite !elem_of_cons, elem_of_nil.
    intros [H | [H | [H | []]]]; discriminate H. }
  assert (Hbase : "base" ∈ target_keys) by (unfold target_keys; repeat constructor).
  split; [exact Hout |].
  split; [exact (proj1 (configs_differ_only_in_target "output") Hout) |].
  split; [exact Hbase |].
  exact (proj1 (proj2 (configs_differ_only_in_target "base")) Hbase).
Defined.

End ConfigClaims.

(** ** The authored entries *)

Section ContentClaims.
Import Yaml Content Schema.

(** C4: every authored experience entry is a flat record satisfying the
    experience schema: a title (string), a logo (asset path), a
    description (string), a startDate (date), a current boolean flag, and
    at most optionally an endDate (date). The startDate of the authored
    entry is the year-month string "2025-06", which denotes the date
    2025-06-01. *)
Theorem experience_entries_satisfy_schema :
  Forall (fun f =>
            coll f = Experience
            /\ has is_str "title" f = true
            /\ has is_str "logo" f = true
            /\ has is_str "description" f = true
            /\ has is_date "startDate" f = true
            /\ has is_bool "current" f = true
            /\ optional is_date "endDate" f = true
            /\ flat f = true
            /\ keys_within (fname <$> experience_schema) f = true
            /\ validate f = Ok tt)
         experience_entries
  /\ field "startDate" experience_dataside = Some (Str "2025-06")
  /\ to_date (Str "2025-06") = Some (Dates.mkDate 2025 6 1).
Proof.
  split; [| split; reflexivity].
  repeat constructor; vm_compute; reflexivity.
Qed.

(** C5: every authored project entry is a flat record satisfying the
    project schema: a title, a description, a url, a featured boolean, and
    techs as an ordered sequence of string labels. *)
Theorem project_entries_satisfy_schema :
  Forall (fun f =>
            coll f = Projects
            /\ has is_str "title" f = true
            /\ has is_str "description" f = true
            /\ has is_str "url" f = true
            /\ has is_bool "featured" f = true
            /\ has is_strings "techs" f = true
            /\ flat f = true
            /\ keys_within (fname <$> project_schema) f = true
            /\ validate f = Ok tt)
         project_entries
  /\ field "techs" project_shop
     = Some (Seq [Str "React"; Str "TypeScript"; Str "TanStack Query";
                  Str "TailwindCSS"; Str "TanStack Router"; Str "Shadcn";
                  Str "animation-ui"]).
Proof.
  split; [| reflexivity].
  repeat constructor; vm_compute; reflexivity.
Qed.

(** C10: in every authored experience entry the current flag and the
    endDate field are consistent: whenever current is true the endDate
    field is absent. *)
Theorem current_entries_have_no_end_date (f : file) :
  f ∈ experience_entries ->
  field "current" f = Some (Bool true) ->
  field "endDate" f = None.
Proof.
  unfold experience_entries. intros Hin _.
  apply list_elem_of_singleton in Hin. subst f. reflexivity.
Qed.

Lemma current_entries_have_no_end_date_witness :
  field "current" experience_dataside = Some (Bool true)
  /\ field "endDate" experience_dataside = None.
Proof.
  split; [reflexivity |].
  apply (current_entries_have_no_end_date experience_dataside).
  - unfold experience_entries. constructor.
  - reflexivity.
Defined.

End ContentClaims.

(** ** The generated site *)

Section BuildClaims.
Import Yaml Content Schema Build.

(** C2: for every content file missing a required frontmatter field of
    its schema the build fails at generation time; no site is produced, so
    the entry is never silently dropped from an output. *)
Theorem missing_required_field_fails_build
    (files : list file) (f : file) (fs : field_spec) :
  f ∈ files ->
  fs ∈ schema_of (coll f) ->
  required fs = true ->
  field (fname fs) f = None ->
  (exists e, build files = Failed e) /\ (forall s, build files <> Ok s).
Proof.
  intros Hin Hfs Hreq Hnone.
  destruct (check_fields_missing _ f fs Hfs Hreq Hnone) as [e He].
  destruct (validate_all_failed files f e Hin He) as [e' He'].
  apply build_failed in He'. rewrite He'.
  split; [eauto | discriminate].
Qed.

(** The experience entry of the repository with its title removed. *)
Lemma missing_required_field_fails_build_witness :
  let untitled := mkFile Experience (delete "title" (data experience_dataside)) in
  build [post_signals; untitled; project_shop] = Failed (MissingField "title")
  /\ forall s, build [post_signals; untitled; project_shop] <> Ok s.
Proof.
  intros untitled. split; [vm_compute; reflexivity |].
  apply (missing_required_field_fails_build
           [post_signals; untitled; project_shop] untitled
           (mkField "title" KString true)).
  - do 2 constructor.
  - cbn. constructor.
  - reflexivity.
  - vm_compute. reflexivity.
Defined.

(** C6: every published blog post carries a publishedAt value that is a
    valid, parseable date (so do the authored posts), and its page shows
    that publication date, in a text that parses back to it. *)
Theorem blog_posts_render_publication_date :
  Forall (fun f => exists d,
              (field "publishedAt" f ≫= to_date) = Some d
              /\ Dates.valid d = true)
         blog_posts
  /\ forall (files : list file) (s : site) (f : file),
       build files = Ok s -> f ∈ files -> coll f = Blog ->
       exists d,
         (field "publishedAt" f ≫= to_date) = Some d
         /\ Dates.valid d = true
         /\ exists p t,
              p ∈ pages s /\ source p = f
              /\ published p = Some d
              /\ published_text p = Some t
              /\ Dates.parse t = Some d.
Proof.
  split.
  - repeat constructor. exists (Dates.mkDate 2026 1 9). split; reflexivity.
  - intros files s f Hb Hin Hc.
    destruct (built_page files s f Hb Hin) as [Hp Hv].
    pose proof (check_fields_ok _ f (mkField "publishedAt" KDate true) Hv) as Hf.
    rewrite Hc in Hf. specialize (Hf ltac:(cbn; repeat constructor)).
    unfold check_field in Hf. cbn [fname fkind required accepts] in Hf.
    destruct (field "publishedAt" f) as [v |] eqn:Ev; [| discriminate].
    unfold is_date in Hf. destruct (to_date v) as [d |] eqn:Ed; [| discriminate].
    assert (Hvalid : Dates.valid d = true) by exact (to_date_valid v d Ed).
    exists d. split; [exact Ed |]. split; [exact Hvalid |].
    exists (render f), (Dates.show d).
    split; [exact Hp |].
    unfold render, publication_date. cbn [source published published_text].
    rewrite Hc, Ev. cbn [mbind option_bind]. rewrite Ed.
    repeat split. apply parse_show, Hvalid.
Qed.

(** The repository's content builds, and the page of the post on signals
    shows 2026-01-09. *)
Lemma blog_posts_render_publication_date_witness :
  exists s,
    build content_files = Ok s
    /\ exists d,
         (field "publishedAt" post_signals ≫= to_date) = Some d
         /\ Dates.valid d = true
         /\ exists p t,
              p ∈ pages s /\ source p = post_signals
              /\ published p = Some d
              /\ published_text p = Some t
              /\ Dates.parse t = Some d.
Proof.
  destruct (build content_files) as [s | e] eqn:Hb;
    [| vm_compute in Hb; discriminate Hb].
  exists s. split; [reflexivity |].
  apply (proj2 blog_posts_render_publication_date content_files s post_signals).
  - exact Hb.
  - unfold content_files, experience_entries, blog_posts. cbn [app].
    do 2 constructor.
  - reflexivity.
Defined.

(** C7: every content file whose frontmatter has current: true and no
    endDate renders an "ongoing" indicator in the generated output. *)
Theorem current_without_end_date_renders_ongoing
    (files : list file) (s : site) (f : file) :
  build files = Ok s ->
  f ∈ files ->
  field "current" f = Some (Bool true) ->
  field "endDate" f = None ->
  exists p, p ∈ pages s /\ source p = f /\ badge p = Some Ongoing.
Proof.
  intros Hb Hin Hcur Hend.
  destruct (built_page files s f Hb Hin) as [Hp _].
  exists (render f). split; [exact Hp |]. split; [reflexivity |].
  cbn [render badge]. unfold badge_of, has, lacks.
  rewrite Hcur, Hend. reflexivity.
Qed.

Lemma current_without_end_date_renders_ongoing_witness :
  exists s,
    build content_files = Ok s
    /\ exists p,
         p ∈ pages s /\ source p = experience_dataside
         /\ badge p = Some Ongoing.
Proof.
  destruct (build content_files) as [s | e] eqn:Hb;
    [| vm_compute in Hb; discriminate Hb].
  exists s. split; [reflexivity |].
  apply (current_without_end_date_renders_ongoing content_files s experience_dataside).
  - exact Hb.
  - unfold content_files, experience_entries. cbn [app]. constructor.
  - reflexivity.
  - reflexivity.
Defined.

(** C8: every project entry whose frontmatter has featured: true appears
    in the featured-projects listing of the generated site. *)
Theorem featured_project_is_listed
    (files : list file) (s : site) (f : file) :
  build files = Ok s ->
  f ∈ files ->
  coll f = Projects ->
  field "featured" f = Some (Bool true) ->
  exists p, p ∈ featured_projects s /\ source p = f.
Proof.
  intros Hb Hin Hc Hfeat.
  destruct (build_ok files s Hb) as (_ & _ & Hfp).
  exists (render f). split; [| reflexivity].
  rewrite Hfp. apply list_elem_of_In, filter_In. split.
  - apply list_elem_of_In. now apply list_elem_of_fmap_2.
  - unfold is_featured, has. cbn [render source].
    rewrite Hc, Hfeat. reflexivity.
Qed.

Lemma featured_project_is_listed_witness :
  exists s,
    build content_files = Ok s
    /\ exists p, p ∈ featured_projects s /\ source p = project_shop.
Proof.
  destruct (build content_files) as [s | e] eqn:Hb;
    [| vm_compute in Hb; discriminate Hb].
  exists s. split; [reflexivity |].
  apply (featured_project_is_listed content_files s project_shop).
  - exact Hb.
  - unfold content_files, experience_entries, blog_posts, project_entries.
    cbn [app]. repeat constructor.
  - reflexivity.
  - reflexivity.
Defined.

End BuildClaims.


(** ** Further properties of the configuration and content files *)

Section ConfigShape.
Import Js Config Shape.

Lemma vercel_options :
  adapter_options astro_config
  = Some (Obj {[ "webAnalytics" := Obj {[ "enabled" := Bool true ]} ]}).
Proof. vm_compute. reflexivity. Qed.

(** X1: neither configuration object sets an option other than site, base,
    output, adapter, prefetch and compressHTML, and the only option handed
    to the adapter is webAnalytics.enabled. *)
Theorem configs_set_nothing_else (k : string) :
  (k ∉ config_keys ->
   get k astro_config = None /\ get k astro_config_prefixed = None)
  /\ (forall opts, adapter_options astro_config = Some opts ->
        (k <> "webAnalytics" -> get k opts = None)
        /\ (forall w, get "webAnalytics" opts = Some w ->
              k <> "enabled" -> get k w = None)).
Proof.
  split.
  - intros Hk. unfold config_keys in Hk.
    rewrite !elem_of_cons, elem_of_nil in Hk.
    unfold astro_config, astro_config_prefixed, defineConfig, get.
    cbn [list_to_map foldr uncurry fst snd].
    rewrite !lookup_insert, lookup_empty.
    repeat case_decide; subst; tauto.
  - intros opts Hopts. rewrite vercel_options in Hopts.
    injection Hopts as <-. cbn [get]. split.
    + intros Hne. now apply lookup_singleton_ne.
    + intros w Hw Hne. rewrite lookup_singleton_eq in Hw.
      injection Hw as <-. cbn [get]. now apply lookup_singleton_ne.
Qed.

Lemma configs_set_nothing_else_witness :
  ("integrations" ∉ config_keys)
  /\ get "integrations" astro_config = None
  /\ get "integrations" astro_config_prefixed = None
  /\ exists opts,
       adapter_options astro_config = Some opts
       /\ get "speedInsights" opts = None.
Proof.
  assert (Hk : "integrations" ∉ config_keys).
  { unfold config_keys. rewrite !elem_of_cons, elem_of_nil.
    intros [H | [H | [H | [H | [H | [H | []]]]]]]; discriminate H. }
  split; [exact Hk |].
  split; [exact (proj1 (proj1 (configs_set_nothing_else "integrations") Hk)) |].
  split; [exact (proj2 (proj1 (configs_set_nothing_else "integrations") Hk)) |].
  eexists. split; [exact vercel_options |].
  apply (proj1 (proj2 (configs_set_nothing_else "speedInsights") _ vercel_options)).
  discriminate.
Defined.

End ConfigShape.

Section ContentShape.
Import Yaml Content Shape.

(** Case analysis on an authored file and on the key looked up in it. *)
Local Ltac authored_file Hin :=
  unfold content_files, experience_entries, blog_posts, project_entries in Hin;
  cbn [app] in Hin;
  rewrite ?elem_of_cons, elem_of_nil in Hin;
  repeat (destruct Hin as [-> | Hin]); [.. | destruct Hin].

Local Ltac authored_key H :=
  unfold field, experience_dataside, post_signals, project_shop in H;
  cbn [data list_to_map foldr uncurry fst snd] in H;
  rewrite !lookup_insert, lookup_empty in H;
  repeat case_decide; try discriminate H.

Local Ltac distinct_items :=
  repeat (apply NoDup_cons; split;
          [rewrite ?elem_of_cons, elem_of_nil; intuition discriminate |]);
  apply NoDup_nil_2.

(** X2: the frontmatter of every authored blog post has exactly the keys
    title, description, publishedAt and tags; title and description are
    strings and tags is a sequence of strings. *)
Theorem blog_post_frontmatter_shape (f : file) (k : string) :
  f ∈ blog_posts ->
  (is_Some (field k f) <-> k ∈ blog_keys)
  /\ coll f = Blog
  /\ has is_str "title" f = true
  /\ has is_str "description" f = true
  /\ has is_strings "tags" f = true
  /\ flat f = true.
Proof.
  unfold blog_posts. intros Hin. apply list_elem_of_singleton in Hin. subst f.
  split; [| repeat split; vm_compute; reflexivity].
  unfold blog_keys. rewrite !elem_of_cons, elem_of_nil.
  unfold field, post_signals. cbn [data list_to_map foldr uncurry fst snd].
  rewrite !lookup_insert, lookup_empty.
  repeat case_decide; subst; split; intros Hx;
    try (destruct Hx as [? Hx]; discriminate Hx); eauto; intuition congruence.
Qed.

Lemma blog_post_frontmatter_shape_witness :
  is_Some (field "tags" post_signals)
  /\ ~ is_Some (field "draft" post_signals)
  /\ has is_strings "tags" post_signals = true.
Proof.
  assert (Hin : post_signals ∈ blog_posts) by (unfold blog_posts; constructor).
  split.
  - apply (proj1 (blog_post_frontmatter_shape post_signals "tags" Hin)).
    unfold blog_keys. repeat constructor.
  - split.
    + intros Hsome.
      apply (proj1 (blog_post_frontmatter_shape post_signals "draft" Hin)) in Hsome.
      unfold blog_keys in Hsome. rewrite !elem_of_cons, elem_of_nil in Hsome.
      destruct Hsome as [H | [H | [H | [H | []]]]]; discriminate H.
    + apply (blog_post_frontmatter_shape post_signals "tags" Hin).
Defined.

(** X3: in every authored content file, a field that holds a sequence (the
    tags of a post, the techs of a project) holds at least one label, only
    strings, and no label twice. *)
Theorem label_sequences_are_distinct (f : file) (k : string) (items : list value) :
  f ∈ content_files ->
  field k f = Some (Seq items) ->
  items <> [] /\ forallb is_str items = true /\ NoDup items.
Proof.
  intros Hin Hk. authored_file Hin; authored_key Hk;
    injection Hk as <-; (split; [discriminate |]); (split; [reflexivity |]);
    distinct_items.
Qed.

Lemma label_sequences_are_distinct_witness :
  exists items,
    field "techs" project_shop = Some (Seq items)
    /\ List.length items = 7%nat
    /\ NoDup items.
Proof.
  eexists. split; [reflexivity |]. split; [reflexivity |].
  apply (label_sequences_are_distinct project_shop "techs").
  - unfold content_files, experience_entries, blog_posts, project_entries.
    cbn [app]. repeat constructor.
  - reflexivity.
Defined.

(** X4: no path written from the root of the site in an authored content
    file lies under the base path prefix of the path-prefixed
    configuration. *)
Theorem root_paths_lack_base_prefix (f : file) (k s : string) :
  f ∈ content_files ->
  field k f = Some (Str s) ->
  root_relative s = true ->
  under_base Config.astro_config_prefixed s = false.
Proof.
  intros Hin Hk Hroot. authored_file Hin; authored_key Hk;
    injection Hk as <-; first [discriminate Hroot | vm_compute; reflexivity].
Qed.

Lemma root_paths_lack_base_prefix_witness :
  field "logo" experience_dataside = Some (Str "/images/companies/techcorp.svg")
  /\ root_relative "/images/companies/techcorp.svg" = true
  /\ under_base Config.astro_config_prefixed "/images/companies/techcorp.svg" = false
  /\ under_base Config.astro_config_prefixed "/DOM-enlightenment/images" = true.
Proof.
  split; [reflexivity |]. split; [reflexivity |].
  split; [| vm_compute; reflexivity].
  apply (root_paths_lack_base_prefix experience_dataside "logo").
  - unfold content_files, experience_entries. cbn [app]. constructor.
  - reflexivity.
  - reflexivity.
Defined.

End ContentShape.
